(** * CAME climate and light platforms (came/climate.py, came/light.py)

    A shallow embedding of the two Home Assistant platform modules of the
    CAME integration, and the properties of their adapters.

    Conventions of the embedding.
    - A Python expression that may raise is a value of [result]: [Ok v] for a
      returned value, [Raise e] for the exception that leaves the function.
    - A method that commands the vendor device returns the list of device
      calls it makes, in order; the vendor library (pycame) owns what a call
      does to the device.
    - Python [float] is IEEE 754 binary64, taken from the Standard Library's
      [SpecFloat] ([prec = 53], [emax = 1024]).
    - The debug log lines of the light entity have no effect on a device or
      a result and are left out. *)

From Stdlib Require Import ZArith Lia Bool.
From Stdlib Require Import Floats.SpecFloat.
From stdpp Require Import gmap strings list finite.

Local Open Scope Z_scope.
#[local] Set Warnings "-clear-no-such-hyp".

(** ** Python values and exceptions *)

Module Py.

(** The built-in exceptions the two modules can raise. *)
Inductive exn : Set :=
| KeyError
| OverflowError
| ValueError
| ZeroDivisionError.

Inductive result (A : Type) : Type :=
| Ok (v : A)
| Raise (e : exn).
Arguments Ok {A} v.
Arguments Raise {A} e.

Definition bind {A B} (r : result A) (k : A -> result B) : result B :=
  match r with
  | Ok v => k v
  | Raise e => Raise e
  end.

(** Python [float]: binary64. *)
Definition float : Set := spec_float.
Definition prec : Z := 53.
Definition emax : Z := 1024.

(** An [int] as the exact binary64 operand of a division. *)
Definition operand (n : Z) : float :=
  match n with
  | Z0 => S754_zero false
  | Zpos m => S754_finite false m 0
  | Zneg m => S754_finite true m 0
  end.

(** [a / b] on two [int]s: the correctly rounded quotient;
    [ZeroDivisionError] when [b] is 0, [OverflowError] when the quotient is
    too large for a float. *)
Definition truediv (a b : Z) : result float :=
  if b =? 0 then Raise ZeroDivisionError
  else match SFdiv prec emax (operand a) (operand b) with
       | S754_infinity _ => Raise OverflowError
       | q => Ok q
       end.

(** Nearest integer to [m * 2^e], ties to the even one. *)
Definition nearest_even (m : positive) (e : Z) : Z :=
  match e with
  | Zneg p =>
      let d := Z.pow_pos 2 p in
      let q := Zpos m / d in
      let r := Zpos m mod d in
      match 2 * r ?= d with
      | Lt => q
      | Gt => q + 1
      | Eq => if Z.even q then q else q + 1
      end
  | _ => Zpos m * 2 ^ e
  end.

(** [round(x)] with one argument: the nearest [int], ties to even;
    [ValueError] on NaN and [OverflowError] on an infinity. *)
Definition round (x : float) : result Z :=
  match x with
  | S754_zero _ => Ok 0
  | S754_finite s m e =>
      Ok (if s then - nearest_even m e else nearest_even m e)
  | S754_infinity _ => Raise OverflowError
  | S754_nan => Raise ValueError
  end.

(** Truth value of an [int]. *)
Definition truthy (n : Z) : bool := negb (n =? 0).

(** [k in d] and [d[k]] on a dict. *)
Definition contains `{Countable K} {V} (d : gmap K V) (k : K) : bool :=
  bool_decide (is_Some (d !! k)).

Definition getitem `{Countable K} {V} (d : gmap K V) (k : K) : result V :=
  match d !! k with
  | Some v => Ok v
  | None => Raise KeyError
  end.

End Py.

#[global] Instance result_ret : MRet Py.result := @Py.Ok.
#[global] Instance result_bind : MBind Py.result :=
  fun A B k r => Py.bind r k.


(** ** Home Assistant: the framework names the platforms import *)

Module HA.

(** [homeassistant.components.climate.const.HVACMode]. *)
Inductive HVACMode : Set :=
| OFF | HEAT | COOL | HEAT_COOL | AUTO | DRY | FAN_ONLY.

#[global] Instance HVACMode_eq_dec : EqDecision HVACMode.
Proof. solve_decision. Defined.

(** [homeassistant.components.light.ColorMode]. *)
Inductive ColorMode : Set :=
| UNKNOWN | ONOFF | BRIGHTNESS | COLOR_TEMP | HS | XY
| RGB | RGBW | RGBWW | WHITE.

#[global] Instance ColorMode_eq_dec : EqDecision ColorMode.
Proof. solve_decision. Defined.

#[global, refine] Instance ColorMode_finite : Finite ColorMode :=
  {| enum := [UNKNOWN; ONOFF; BRIGHTNESS; COLOR_TEMP; HS; XY;
              RGB; RGBW; RGBWW; WHITE] |}.
Proof.
  - by apply (bool_decide_unpack _).
  - intros []; by apply (bool_decide_unpack _).
Defined.

(** [ClimateEntityFeature], an [IntFlag]: each member is one bit. *)
Module ClimateEntityFeature.
Definition TARGET_TEMPERATURE : Z := 1.
Definition TARGET_HUMIDITY : Z := 4.
Definition FAN_MODE : Z := 8.
Definition TURN_OFF : Z := 128.
Definition TURN_ON : Z := 256.
End ClimateEntityFeature.

Inductive UnitOfTemperature : Set := CELSIUS | FAHRENHEIT | KELVIN.

(** [homeassistant.const.PRECISION_TENTHS = 0.1]. *)
Definition PRECISION_TENTHS : Py.float :=
  S754_finite false 7205759403792794 (-56).

(** The entity domains, and [ENTITY_ID_FORMAT = DOMAIN + ".{}"] applied to
    an object id. *)
Definition CLIMATE_DOMAIN : string := "climate".
Definition LIGHT_DOMAIN : string := "light".
Definition ENTITY_ID_FORMAT (domain object_id : string) : string :=
  domain +:+ "." +:+ object_id.

End HA.

(** ** pycame: the vendor library's devices *)

Module CameThermo.

(** Modelled from the spec: the vendor constants [THERMO_MODE_*],
    [THERMO_SEASON_*] and [THERMO_DEHUMIDIFIER_ON] are imported from
    [pycame.devices.came_thermo], which is not part of the sources. The
    spec names four modes (off, auto, jolly, manual), three seasons (off,
    winter, summer) and the dehumidifier sub-state on; each is the code of
    that name, and a device may report any other code. *)
Definition THERMO_MODE_OFF : string := "off".
Definition THERMO_MODE_MANUAL : string := "manual".
Definition THERMO_MODE_AUTO : string := "auto".
Definition THERMO_MODE_JOLLY : string := "jolly".
Definition THERMO_SEASON_OFF : string := "off".
Definition THERMO_SEASON_WINTER : string := "winter".
Definition THERMO_SEASON_SUMMER : string := "summer".
Definition THERMO_DEHUMIDIFIER_ON : string := "on".

(** The attributes of a thermoregulation zone that the adapter reads.
    [state] is the zone's integer status, 0 when the zone is off. *)
Record device : Type := {
  state : Z;
  mode : string;
  season : string;
  dehumidifier_state : string;
  current_temperature : option Py.float;
  target_temperature : option Py.float;
  target_humidity : option Z;
  support_target_temperature : bool;
  support_target_humidity : bool;
  support_fan_speed : bool
}.

(** The device methods the adapter calls, with their arguments; a keyword
    argument of [zone_config] that is not passed is [None]. *)
Inductive call : Type :=
| set_target_temperature (temperature : Py.float)
| zone_config (mode season : option string).

(** What a call does to a zone is the vendor library's business. [keep] is
    a zone that keeps what it is told: [zone_config] overwrites the mode
    and the season it is given, [set_target_temperature] the target. *)
Definition keep (c : call) (d : device) : device :=
  match c with
  | set_target_temperature t =>
      {| state := state d; mode := mode d; season := season d;
         dehumidifier_state := dehumidifier_state d;
         current_temperature := current_temperature d;
         target_temperature := Some t;
         target_humidity := target_humidity d;
         support_target_temperature := support_target_temperature d;
         support_target_humidity := support_target_humidity d;
         support_fan_speed := support_fan_speed d |}
  | zone_config m s =>
      {| state := state d;
         mode := default (mode d) m;
         season := default (season d) s;
         dehumidifier_state := dehumidifier_state d;
         current_temperature := current_temperature d;
         target_temperature := target_temperature d;
         target_humidity := target_humidity d;
         support_target_temperature := support_target_temperature d;
         support_target_humidity := support_target_humidity d;
         support_fan_speed := support_fan_speed d |}
  end.

End CameThermo.

Module CameLight.

(** Modelled from the spec: [LIGHT_STATE_ON] is imported from
    [pycame.devices.came_light], which is not part of the sources; the
    status code of a light that is on. *)
Definition LIGHT_STATE_ON : Z := 1.

(** The attributes of a light that the adapter reads; [brightness] is the
    device's percentage and [hs_color] its hue and saturation. *)
Record device : Type := {
  state : Z;
  brightness : Z;
  hs_color : list Py.float;
  support_brightness : bool;
  support_color : bool
}.

Inductive call : Type :=
| turn_on
| turn_off
| set_brightness (percent : Z)
| set_hs_color (hs : list Py.float).

(** What a call does to a light is the vendor library's business. [keep]
    is a light that keeps what it is told. *)
Definition keep (c : call) (d : device) : device :=
  match c with
  | turn_on =>
      {| state := LIGHT_STATE_ON; brightness := brightness d;
         hs_color := hs_color d;
         support_brightness := support_brightness d;
         support_color := support_color d |}
  | turn_off =>
      {| state := 0; brightness := brightness d;
         hs_color := hs_color d;
         support_brightness := support_brightness d;
         support_color := support_color d |}
  | set_brightness percent =>
      {| state := state d; brightness := percent;
         hs_color := hs_color d;
         support_brightness := support_brightness d;
         support_color := support_color d |}
  | set_hs_color hs =>
      {| state := state d; brightness := brightness d;
         hs_color := hs;
         support_brightness := support_brightness d;
         support_color := support_color d |}
  end.

End CameLight.

(** ** came/climate.py *)

Module Climate.
Import Py HA CameThermo.

Definition CAME_MODE_TO_HA : gmap string HVACMode :=
  <[THERMO_MODE_JOLLY := AUTO]>
    (<[THERMO_MODE_AUTO := AUTO]>
       (<[THERMO_MODE_OFF := OFF]> ∅)).

Definition CAME_SEASON_TO_HA : gmap string HVACMode :=
  <[THERMO_SEASON_SUMMER := COOL]>
    (<[THERMO_SEASON_WINTER := HEAT]>
       (<[THERMO_SEASON_OFF := OFF]> ∅)).

(** The entity: the wrapped device and the attributes [__init__] sets. *)
Record CameClimateEntity : Type := {
  _device : device;
  entity_id : string;
  _attr_supported_features : Z;
  _attr_target_temperature_step : float;
  _attr_temperature_unit : UnitOfTemperature
}.

(** The keyword arguments [set_temperature] reads. *)
Record temperature_kwargs : Type := {
  ATTR_TEMPERATURE : option float
}.

(** What the platform does to the framework: it connects a listener to the
    discovery signal of a domain, and it hands a batch of entities to
    [async_add_entities]. *)
Inductive effect : Type :=
| async_dispatcher_connect (domain : string)
| async_add_entities (entities : list CameClimateEntity).

(** [hass.data[DOMAIN]]: the manager, by its [get_device_by_id], and the
    pending device ids of each domain. *)
Record hass_data : Type := {
  CONF_MANAGER : string -> option device;
  CONF_PENDING : gmap string (list string)
}.

(** The entity holds a reference to its device, so a later read sees what
    the calls have done: [commanded perform self calls] is the entity once
    its device has gone through [calls], each acting as [perform] says. *)
Definition commanded (perform : call -> device -> device)
    (self : CameClimateEntity) (calls : list call) : CameClimateEntity :=
  {| _device := foldl (fun d c => perform c d) (_device self) calls;
     entity_id := entity_id self;
     _attr_supported_features := _attr_supported_features self;
     _attr_target_temperature_step := _attr_target_temperature_step self;
     _attr_temperature_unit := _attr_temperature_unit self |}.

Section Entity.

(** [CameEntity.unique_id] of the entity that wraps a device; the base
    class lives in entity.py, which is not part of the sources. *)
Variable unique_id : device -> string.

Definition __init__ (device : device) : CameClimateEntity :=
  {| _device := device;
     entity_id := ENTITY_ID_FORMAT CLIMATE_DOMAIN (unique_id device);
     _attr_supported_features :=
       Z.lor
         (Z.lor
            (Z.lor
               (Z.lor
                  (if support_target_temperature device
                   then ClimateEntityFeature.TARGET_TEMPERATURE else 0)
                  (if support_target_humidity device
                   then ClimateEntityFeature.TARGET_HUMIDITY else 0))
               (if support_fan_speed device
                then ClimateEntityFeature.FAN_MODE else 0))
            ClimateEntityFeature.TURN_ON)
         ClimateEntityFeature.TURN_OFF;
     _attr_target_temperature_step := PRECISION_TENTHS;
     _attr_temperature_unit := CELSIUS |}.

(** The loop of [_setup_entities], with the list built so far. *)
Fixpoint setup_loop (manager : string -> option device)
    (dev_ids : list string) (entities : list CameClimateEntity)
    : list CameClimateEntity :=
  match dev_ids with
  | [] => entities
  | dev_id :: rest =>
      match manager dev_id with
      | None => setup_loop manager rest entities
      | Some device =>
          setup_loop manager rest (entities ++ [__init__ device])
      end
  end.

Definition _setup_entities (hass : hass_data) (dev_ids : list string)
    : list CameClimateEntity :=
  setup_loop (CONF_MANAGER hass) dev_ids [].

Definition async_discover_sensor (hass : hass_data)
    (dev_ids : list string) : list effect :=
  match dev_ids with
  | [] => []
  | _ => [async_add_entities (_setup_entities hass dev_ids)]
  end.

(** Returns [hass.data] after the pending ids are popped, and the effects
    on the framework in order. *)
Definition async_setup_entry (hass : hass_data)
    : hass_data * list effect :=
  let devices_ids := default [] (CONF_PENDING hass !! CLIMATE_DOMAIN) in
  let hass' := {| CONF_MANAGER := CONF_MANAGER hass;
                  CONF_PENDING := delete CLIMATE_DOMAIN (CONF_PENDING hass) |} in
  (hass',
   async_dispatcher_connect CLIMATE_DOMAIN
     :: async_discover_sensor hass' devices_ids).

End Entity.

Definition current_temperature (self : CameClimateEntity) : option float :=
  CameThermo.current_temperature (_device self).

Definition target_temperature (self : CameClimateEntity) : option float :=
  CameThermo.target_temperature (_device self).

Definition target_humidity (self : CameClimateEntity) : option Z :=
  CameThermo.target_humidity (_device self).

Definition hvac_mode (self : CameClimateEntity) : result HVACMode :=
  if negb (truthy (state (_device self))) then Ok OFF
  else if contains CAME_MODE_TO_HA (mode (_device self))
  then getitem CAME_MODE_TO_HA (mode (_device self))
  else if bool_decide (dehumidifier_state (_device self) = THERMO_DEHUMIDIFIER_ON)
  then Ok DRY
  else getitem CAME_SEASON_TO_HA (season (_device self)).

Definition hvac_modes (self : CameClimateEntity) : list HVACMode :=
  let operations := [OFF; AUTO; HEAT; COOL] in
  if support_target_humidity (_device self)
  then operations ++ [DRY]
  else operations.

Definition set_temperature (self : CameClimateEntity)
    (kwargs : temperature_kwargs) : list call :=
  match ATTR_TEMPERATURE kwargs with
  | Some temperature => [set_target_temperature temperature]
  | None => []
  end.

Definition set_hvac_mode (self : CameClimateEntity) (hvac_mode : HVACMode)
    : list call :=
  if bool_decide (hvac_mode = OFF)
  then [zone_config (Some THERMO_MODE_OFF) None]
  else if bool_decide (hvac_mode = HEAT)
  then [zone_config (Some THERMO_MODE_MANUAL) (Some THERMO_SEASON_WINTER)]
  else if bool_decide (hvac_mode = COOL)
  then [zone_config (Some THERMO_MODE_MANUAL) (Some THERMO_SEASON_SUMMER)]
  else [zone_config (Some THERMO_MODE_AUTO) None].

End Climate.

(** ** came/light.py *)

Module Light.
Import Py HA CameLight.

(** The entity: the wrapped device and the attributes [__init__] sets. *)
Record CameLightEntity : Type := {
  _device : device;
  entity_id : string;
  _attr_supported_color_modes : gset ColorMode;
  _attr_color_mode : option ColorMode
}.

(** The keyword arguments [turn_on] reads: the brightness on the
    framework's 0..255 scale and the hue and saturation pair. *)
Record turn_on_kwargs : Type := {
  ATTR_BRIGHTNESS : option Z;
  ATTR_HS_COLOR : option (list float)
}.

Inductive effect : Type :=
| async_dispatcher_connect (domain : string)
| async_add_entities (entities : list CameLightEntity).

Record hass_data : Type := {
  CONF_MANAGER : string -> option device;
  CONF_PENDING : gmap string (list string)
}.

(** The entity once its device has gone through [calls], each acting as
    [perform] says. *)
Definition commanded (perform : call -> device -> device)
    (self : CameLightEntity) (calls : list call) : CameLightEntity :=
  {| _device := foldl (fun d c => perform c d) (_device self) calls;
     entity_id := entity_id self;
     _attr_supported_color_modes := _attr_supported_color_modes self;
     _attr_color_mode := _attr_color_mode self |}.

Section Entity.

(** [CameEntity.unique_id] of the entity that wraps a device; the base
    class lives in entity.py, which is not part of the sources. *)
Variable unique_id : device -> string.

Definition __init__ (device : device) : CameLightEntity :=
  let modes : gset ColorMode := ∅ in
  let modes :=
    if support_brightness device then {[BRIGHTNESS]} ∪ modes else modes in
  let '(modes, color_mode) :=
    if support_color device
    then ({[HS]} ∪ modes, Some HS)
    else (modes, Some BRIGHTNESS) in
  let modes :=
    if bool_decide (modes = ∅) then {[BRIGHTNESS]} ∪ modes else modes in
  {| _device := device;
     entity_id := ENTITY_ID_FORMAT LIGHT_DOMAIN (unique_id device);
     _attr_supported_color_modes := modes;
     _attr_color_mode := color_mode |}.

Fixpoint setup_loop (manager : string -> option device)
    (dev_ids : list string) (entities : list CameLightEntity)
    : list CameLightEntity :=
  match dev_ids with
  | [] => entities
  | dev_id :: rest =>
      match manager dev_id with
      | None => setup_loop manager rest entities
      | Some device =>
          setup_loop manager rest (entities ++ [__init__ device])
      end
  end.

Definition _setup_entities (hass : hass_data) (dev_ids : list string)
    : list CameLightEntity :=
  setup_loop (CONF_MANAGER hass) dev_ids [].

Definition async_discover_sensor (hass : hass_data)
    (dev_ids : list string) : list effect :=
  match dev_ids with
  | [] => []
  | _ => [async_add_entities (_setup_entities hass dev_ids)]
  end.

Definition async_setup_entry (hass : hass_data)
    : hass_data * list effect :=
  let devices_ids := default [] (CONF_PENDING hass !! LIGHT_DOMAIN) in
  let hass' := {| CONF_MANAGER := CONF_MANAGER hass;
                  CONF_PENDING := delete LIGHT_DOMAIN (CONF_PENDING hass) |} in
  (hass',
   async_dispatcher_connect LIGHT_DOMAIN
     :: async_discover_sensor hass' devices_ids).

End Entity.

Definition is_on (self : CameLightEntity) : bool :=
  bool_decide (state (_device self) = LIGHT_STATE_ON).

(** The device calls of [turn_on], or the exception of the brightness
    arithmetic, which is evaluated before any call of the second branch. *)
Definition turn_on (self : CameLightEntity) (kwargs : turn_on_kwargs)
    : result (list call) :=
  if negb (bool_decide (is_Some (ATTR_BRIGHTNESS kwargs)))
     && negb (bool_decide (is_Some (ATTR_HS_COLOR kwargs)))
  then Ok [CameLight.turn_on]
  else
    calls ← match ATTR_BRIGHTNESS kwargs with
            | Some value =>
                percent ← truediv (value * 100) 255 ≫= round;
                Ok [set_brightness percent]
            | None => Ok []
            end;
    Ok (calls ++ match ATTR_HS_COLOR kwargs with
                 | Some hs => [set_hs_color hs]
                 | None => []
                 end).

Definition turn_off (self : CameLightEntity) : list call :=
  [CameLight.turn_off].

Definition brightness (self : CameLightEntity) : result (option Z) :=
  if negb (support_brightness (_device self)) then Ok None
  else value ← truediv (CameLight.brightness (_device self) * 255) 100 ≫= round;
       Ok (Some value).

Definition hs_color (self : CameLightEntity) : option (list float) :=
  if negb (support_color (_device self)) then None
  else Some (CameLight.hs_color (_device self)).

Definition color_mode (self : CameLightEntity) : option ColorMode :=
  _attr_color_mode self.

End Light.

(** ** The claimed derivation of [hvac_mode], in the specification's words *)

Module Spec.
Import Py HA CameThermo.

(** The mapping of a season: off to OFF, winter to HEAT, summer to COOL. *)
Definition season_mapping (season : string) : result HVACMode :=
  if bool_decide (season = THERMO_SEASON_OFF) then Ok OFF
  else if bool_decide (season = THERMO_SEASON_WINTER) then Ok HEAT
  else if bool_decide (season = THERMO_SEASON_SUMMER) then Ok COOL
  else Raise KeyError.

(** The four steps as the specification orders them. *)
Definition hvac_mode (d : device) : result HVACMode :=
  if negb (truthy (state d)) then Ok OFF
  else if bool_decide (mode d = THERMO_MODE_AUTO ∨ mode d = THERMO_MODE_JOLLY)
  then Ok AUTO
  else if bool_decide (mode d = THERMO_MODE_MANUAL
                       ∧ dehumidifier_state d = THERMO_DEHUMIDIFIER_ON)
  then Ok DRY
  else season_mapping (season d).

(** The brightness read back after it was set to [B], as the specification
    writes it: [round(round(B*100/255)*255/100)]. *)
Definition brightness_round_trip (B : Z) : result Z :=
  percent ← truediv (B * 100) 255 ≫= round;
  truediv (percent * 255) 100 ≫= round.

End Spec.

(** ** Sample devices *)

Module Sample.
Import CameThermo CameLight.

Definition uid {A} (_ : A) : string := "1".

(** A zone that is on, with the given mode, season and dehumidifier. *)
Definition zone (m s dh : string) : CameThermo.device :=
  {| CameThermo.state := 1; mode := m; season := s;
     dehumidifier_state := dh;
     current_temperature := None; target_temperature := None;
     target_humidity := None;
     support_target_temperature := true;
     support_target_humidity := false;
     support_fan_speed := false |}.

(** [hass.data] of a manager that knows one zone, under the id [known]. *)
Definition zone_hass : Climate.hass_data :=
  {| Climate.CONF_MANAGER := λ dev_id,
       if String.eqb dev_id "known"
       then Some (zone THERMO_MODE_AUTO THERMO_SEASON_WINTER "off")
       else None;
     Climate.CONF_PENDING := {[ HA.CLIMATE_DOMAIN := ["known"; "lost"] ]} |}.

(** A dimmable light at the given percentage. *)
Definition dimmer (percent : Z) : CameLight.device :=
  {| CameLight.state := 1; brightness := percent; hs_color := [];
     support_brightness := true; support_color := false |}.

(** A light with neither capability. *)
Definition switch : CameLight.device :=
  {| CameLight.state := 0; brightness := 0; hs_color := [];
     support_brightness := false; support_color := false |}.

(** The hue 30.0 and the saturation 100.0. *)
Definition orange : list Py.float :=
  [S754_finite false 8444249301319680 (-48);
   S754_finite false 7036874417766400 (-46)].

(** A dimmable colour light at the given percentage, showing no colour. *)
Definition lamp (percent : Z) : CameLight.device :=
  {| CameLight.state := 1; brightness := percent; hs_color := [];
     support_brightness := true; support_color := true |}.

(** [hass.data] of a manager that knows one light, under the id [known]. *)
Definition light_hass : Light.hass_data :=
  {| Light.CONF_MANAGER := λ dev_id,
       if String.eqb dev_id "known" then Some (dimmer 40) else None;
     Light.CONF_PENDING := {[ HA.LIGHT_DOMAIN := ["lost"; "known"] ]} |}.

End Sample.

(** * Properties *)

(** ** The climate entity *)

Section Climate_facts.
Import Py HA CameThermo Climate.

Implicit Types (self : CameClimateEntity) (m : string).

Lemma CAME_MODE_TO_HA_lookup m :
  CAME_MODE_TO_HA !! m =
    if decide (m = THERMO_MODE_JOLLY) then Some AUTO
    else if decide (m = THERMO_MODE_AUTO) then Some AUTO
    else if decide (m = THERMO_MODE_OFF) then Some OFF
    else None.
Proof.
  unfold CAME_MODE_TO_HA. rewrite !lookup_insert, lookup_empty.
  repeat case_decide; congruence.
Qed.

Lemma CAME_SEASON_TO_HA_lookup m :
  CAME_SEASON_TO_HA !! m =
    if decide (m = THERMO_SEASON_SUMMER) then Some COOL
    else if decide (m = THERMO_SEASON_WINTER) then Some HEAT
    else if decide (m = THERMO_SEASON_OFF) then Some OFF
    else None.
Proof.
  unfold CAME_SEASON_TO_HA. rewrite !lookup_insert, lookup_empty.
  repeat case_decide; congruence.
Qed.

Lemma contains_lookup `{Countable K} {V} (d : gmap K V) k :
  contains d k = match d !! k with Some _ => true | None => false end.
Proof.
  unfold contains. destruct (d !! k) eqn:E.
  - apply bool_decide_eq_true_2. eauto.
  - apply bool_decide_eq_false_2. intros [? ?]. congruence.
Qed.

(** [hvac_mode] with its two table accesses resolved. *)
Lemma hvac_mode_unfold self :
  hvac_mode self =
    if negb (truthy (state (_device self))) then Ok OFF
    else match CAME_MODE_TO_HA !! mode (_device self) with
         | Some v => Ok v
         | None =>
             if decide (dehumidifier_state (_device self)
                        = THERMO_DEHUMIDIFIER_ON)
             then Ok DRY
             else match CAME_SEASON_TO_HA !! season (_device self) with
                  | Some v => Ok v
                  | None => Raise KeyError
                  end
         end.
Proof.
  unfold hvac_mode, getitem. rewrite contains_lookup.
  destruct (negb _); [done |].
  destruct (CAME_MODE_TO_HA !! _); [done |].
  unfold bool_decide. by destruct (decide_rel _ _ _).
Qed.

(** C1, as stated, fails: a zone that is on with mode off, dehumidifier
    not on and season winter is none of auto, jolly or manual with the
    dehumidifier on, so the claim sends it to the season's mapping, HEAT;
    the code finds the mode in [CAME_MODE_TO_HA] and returns OFF. *)
Lemma hvac_mode_mode_off_counterexample :
  let self := __init__ Sample.uid
                (Sample.zone THERMO_MODE_OFF THERMO_SEASON_WINTER "off") in
  truthy (state (_device self)) = true
  ∧ Spec.hvac_mode (_device self) = Ok HEAT
  ∧ hvac_mode self = Ok OFF
  ∧ hvac_mode self ≠ Spec.hvac_mode (_device self).
Proof. by vm_compute. Qed.

(** C1, amended: [hvac_mode] is OFF when the device state is off; otherwise
    the table entry of the mode when the mode is off, auto or jolly (OFF,
    AUTO, AUTO); otherwise, for manual and any other mode, DRY when the
    dehumidifier sub-state is on; otherwise the mapping of the season when
    the season is off, winter or summer (OFF, HEAT, COOL). *)
Theorem hvac_mode_priority self :
  let d := _device self in
  (truthy (state d) = false → hvac_mode self = Ok OFF)
  ∧ (truthy (state d) = true →
     (mode d = THERMO_MODE_OFF → hvac_mode self = Ok OFF)
     ∧ (mode d = THERMO_MODE_AUTO ∨ mode d = THERMO_MODE_JOLLY →
        hvac_mode self = Ok AUTO)
     ∧ (mode d ≠ THERMO_MODE_OFF → mode d ≠ THERMO_MODE_AUTO →
        mode d ≠ THERMO_MODE_JOLLY →
        (dehumidifier_state d = THERMO_DEHUMIDIFIER_ON →
         hvac_mode self = Ok DRY)
        ∧ (dehumidifier_state d ≠ THERMO_DEHUMIDIFIER_ON →
           (season d = THERMO_SEASON_OFF → hvac_mode self = Ok OFF)
           ∧ (season d = THERMO_SEASON_WINTER → hvac_mode self = Ok HEAT)
           ∧ (season d = THERMO_SEASON_SUMMER → hvac_mode self = Ok COOL)))).
Proof.
  intros d. rewrite hvac_mode_unfold. fold d.
  rewrite CAME_MODE_TO_HA_lookup, CAME_SEASON_TO_HA_lookup.
  split; [intros ->; done |]. intros ->. cbn [negb].
  split; [intros ->; done |].
  split; [intros [-> | ->]; done |].
  intros Hoff Hauto Hjolly.
  rewrite !decide_False by done.
  split; [intros ->; done |]. intros Hdh.
  rewrite (decide_False (P := dehumidifier_state d = _)) by done.
  repeat split; intros ->; done.
Qed.

Lemma hvac_mode_priority_witness :
  let self := __init__ Sample.uid
                (Sample.zone THERMO_MODE_MANUAL THERMO_SEASON_SUMMER "off") in
  hvac_mode self = Ok COOL.
Proof.
  intros self.
  refine (proj2 (proj2 (proj2 (proj2 (proj2 (proj2
    (hvac_mode_priority self) _)) _ _ _) _)) _); by vm_compute.
Defined.

(** C3: when the device is on, its mode is manual, the dehumidifier
    sub-state is not on and the season is none of off, winter and summer,
    the access to [CAME_SEASON_TO_HA] raises [KeyError]: no mode is
    returned. *)
Theorem hvac_mode_unmapped_season self :
  truthy (state (_device self)) = true →
  mode (_device self) = THERMO_MODE_MANUAL →
  dehumidifier_state (_device self) ≠ THERMO_DEHUMIDIFIER_ON →
  season (_device self) ≠ THERMO_SEASON_OFF →
  season (_device self) ≠ THERMO_SEASON_WINTER →
  season (_device self) ≠ THERMO_SEASON_SUMMER →
  hvac_mode self = Raise KeyError.
Proof.
  intros Hon Hmode Hdh H1 H2 H3. rewrite hvac_mode_unfold, Hon. cbn [negb].
  rewrite CAME_MODE_TO_HA_lookup, CAME_SEASON_TO_HA_lookup, Hmode.
  rewrite !decide_False by done. done.
Qed.

Lemma hvac_mode_unmapped_season_witness :
  hvac_mode (__init__ Sample.uid
               (Sample.zone THERMO_MODE_MANUAL "autumn" "off"))
  = Raise KeyError.
Proof. apply hvac_mode_unmapped_season; by vm_compute. Defined.

(** C2: [set_hvac_mode] issues one [zone_config]: mode off for OFF; mode
    manual with season winter for HEAT; mode manual with season summer for
    COOL; mode auto for every other requested mode, DRY among them. *)
Theorem set_hvac_mode_commands self :
  set_hvac_mode self OFF = [zone_config (Some THERMO_MODE_OFF) None]
  ∧ set_hvac_mode self HEAT
    = [zone_config (Some THERMO_MODE_MANUAL) (Some THERMO_SEASON_WINTER)]
  ∧ set_hvac_mode self COOL
    = [zone_config (Some THERMO_MODE_MANUAL) (Some THERMO_SEASON_SUMMER)]
  ∧ set_hvac_mode self DRY = [zone_config (Some THERMO_MODE_AUTO) None]
  ∧ ∀ requested : HVACMode,
      requested ≠ OFF → requested ≠ HEAT → requested ≠ COOL →
      set_hvac_mode self requested
      = [zone_config (Some THERMO_MODE_AUTO) None].
Proof.
  repeat split; try done.
  intros requested H1 H2 H3. unfold set_hvac_mode.
  by rewrite !bool_decide_eq_false_2.
Qed.

Lemma set_hvac_mode_commands_witness :
  set_hvac_mode (__init__ Sample.uid
                   (Sample.zone THERMO_MODE_OFF THERMO_SEASON_OFF "off"))
    FAN_ONLY
  = [zone_config (Some THERMO_MODE_AUTO) None].
Proof.
  refine (proj2 (proj2 (proj2 (proj2 (set_hvac_mode_commands _))))
            FAN_ONLY _ _ _); discriminate.
Defined.

(** C8: with a temperature among the keyword arguments [set_temperature]
    makes one call, [set_target_temperature] with that very value; with
    none it makes no call, so the device is as it was whatever a call
    does to it. *)
Theorem set_temperature_forwards self :
  (∀ t, set_temperature self {| ATTR_TEMPERATURE := Some t |}
        = [set_target_temperature t])
  ∧ set_temperature self {| ATTR_TEMPERATURE := None |} = []
  ∧ ∀ perform,
      _device (commanded perform self
                 (set_temperature self {| ATTR_TEMPERATURE := None |}))
      = _device self.
Proof. done. Qed.

(** C9: [hvac_modes] is OFF, AUTO, HEAT, COOL in that order, followed by
    DRY exactly when the device supports a target humidity; and requesting
    DRY all the same commands mode auto. *)
Theorem hvac_modes_list self :
  hvac_modes self
  = [OFF; AUTO; HEAT; COOL]
      ++ (if support_target_humidity (_device self) then [DRY] else [])
  ∧ (DRY ∈ hvac_modes self ↔ support_target_humidity (_device self) = true)
  ∧ set_hvac_mode self DRY = [zone_config (Some THERMO_MODE_AUTO) None].
Proof.
  unfold hvac_modes.
  destruct (support_target_humidity (_device self)); cbn.
  - repeat split; try done. intros _. repeat constructor.
  - repeat split; try done. intros H.
    rewrite !elem_of_cons, elem_of_nil in H. intuition discriminate.
Qed.

(** X1: the only way [hvac_mode] fails is the access to
    [CAME_SEASON_TO_HA]: it raises exactly when the device is on, its mode
    is not in [CAME_MODE_TO_HA], the dehumidifier sub-state is not on and
    the season is not in [CAME_SEASON_TO_HA], and then with [KeyError]. *)
Theorem hvac_mode_raises_iff self e :
  hvac_mode self = Raise e
  ↔ e = KeyError
    ∧ truthy (state (_device self)) = true
    ∧ CAME_MODE_TO_HA !! mode (_device self) = None
    ∧ dehumidifier_state (_device self) ≠ THERMO_DEHUMIDIFIER_ON
    ∧ CAME_SEASON_TO_HA !! season (_device self) = None.
Proof.
  rewrite hvac_mode_unfold.
  destruct (truthy (state (_device self))); cbn [negb];
    [| split; [done | by intros (_ & ? & _)]].
  destruct (CAME_MODE_TO_HA !! mode (_device self));
    [split; [done | by intros (_ & _ & ? & _)] |].
  destruct (decide (dehumidifier_state (_device self) = THERMO_DEHUMIDIFIER_ON));
    [split; [done | by intros (_ & _ & _ & ? & _)] |].
  destruct (CAME_SEASON_TO_HA !! season (_device self));
    [split; [done | by intros (_ & _ & _ & _ & ?)] |].
  split; [intros [= <-]; done | by intros (-> & _)].
Qed.

(** X2: a mode that [hvac_mode] returns is one of OFF, AUTO, HEAT, COOL and
    DRY. It is among the advertised [hvac_modes], except that DRY is
    reported for a running dehumidifier also on a device without target
    humidity, which does not advertise it. *)
Theorem hvac_mode_advertised self current :
  hvac_mode self = Ok current →
  current ∈ hvac_modes self
  ∨ (current = DRY
     ∧ support_target_humidity (_device self) = false
     ∧ dehumidifier_state (_device self) = THERMO_DEHUMIDIFIER_ON).
Proof.
  rewrite hvac_mode_unfold, CAME_MODE_TO_HA_lookup, CAME_SEASON_TO_HA_lookup.
  unfold hvac_modes. intros H.
  assert (Hbase : ∀ x, x ∈ [OFF; AUTO; HEAT; COOL] →
            x ∈ (if support_target_humidity (_device self)
                 then [OFF; AUTO; HEAT; COOL] ++ [DRY]
                 else [OFF; AUTO; HEAT; COOL])).
  { intros x Hx. destruct (support_target_humidity _); [| done].
    apply elem_of_app. by left. }
  destruct (negb _).
  { injection H as <-. left. apply Hbase. by repeat constructor. }
  repeat case_decide; try (injection H as <-); try discriminate;
    try (left; apply Hbase; by repeat constructor).
  destruct (support_target_humidity (_device self)) eqn:Hs.
  - left. cbn. by repeat constructor.
  - right. done.
Qed.

Lemma hvac_mode_advertised_witness :
  let self := __init__ Sample.uid
                (Sample.zone THERMO_MODE_MANUAL THERMO_SEASON_WINTER
                   THERMO_DEHUMIDIFIER_ON) in
  DRY ∈ hvac_modes self
  ∨ (DRY = DRY
     ∧ support_target_humidity (_device self) = false
     ∧ dehumidifier_state (_device self) = THERMO_DEHUMIDIFIER_ON).
Proof. intros self. apply hvac_mode_advertised. by vm_compute. Defined.

(** X3: the feature flags of a new entity. TURN_ON and TURN_OFF are always
    set; TARGET_TEMPERATURE, TARGET_HUMIDITY and FAN_MODE are set exactly
    when the device has the capability; no other bit is set. *)
Theorem init_supported_features unique_id (device : CameThermo.device) :
  let features := _attr_supported_features (__init__ unique_id device) in
  Z.land features ClimateEntityFeature.TURN_ON = ClimateEntityFeature.TURN_ON
  ∧ Z.land features ClimateEntityFeature.TURN_OFF
    = ClimateEntityFeature.TURN_OFF
  ∧ Z.land features ClimateEntityFeature.TARGET_TEMPERATURE
    = (if support_target_temperature device
       then ClimateEntityFeature.TARGET_TEMPERATURE else 0)
  ∧ Z.land features ClimateEntityFeature.TARGET_HUMIDITY
    = (if support_target_humidity device
       then ClimateEntityFeature.TARGET_HUMIDITY else 0)
  ∧ Z.land features ClimateEntityFeature.FAN_MODE
    = (if support_fan_speed device then ClimateEntityFeature.FAN_MODE else 0)
  ∧ Z.land features (Z.lnot (1 + 4 + 8 + 128 + 256)) = 0.
Proof.
  cbn.
  by destruct (support_target_temperature device),
       (support_target_humidity device), (support_fan_speed device).
Qed.

End Climate_facts.

(** ** Commanding a mode and reading it back *)

Section Mode_round_trip.
Import Py HA CameThermo Climate.

(** What [zone_config] does to the zone: any vendor device that reports the
    mode and the season it was last given. *)
Variable perform : call → device → device.
Hypothesis zone_config_mode :
  ∀ m s d, mode (perform (zone_config (Some m) s) d) = m.
Hypothesis zone_config_season :
  ∀ m s d, season (perform (zone_config m (Some s)) d) = s.

(** X4: after [set_hvac_mode(OFF)] the entity reports OFF, whether the zone
    then says that it is off or only that its mode is off: this is the case
    the OFF entry of [CAME_MODE_TO_HA] serves. *)
Theorem set_off_reads_off self :
  hvac_mode (commanded perform self (set_hvac_mode self OFF)) = Ok OFF.
Proof.
  rewrite hvac_mode_unfold, CAME_MODE_TO_HA_lookup.
  change (_device (commanded perform self (set_hvac_mode self OFF)))
    with (perform (zone_config (Some THERMO_MODE_OFF) None) (_device self)).
  rewrite zone_config_mode. by destruct (negb _).
Qed.

(** X5: on a zone that is on and whose dehumidifier is not on after the
    command, the entity reports the mode that was requested when that is
    HEAT, COOL or AUTO, and AUTO for every other request (DRY, HEAT_COOL and
    FAN_ONLY), which is then not what was asked for. *)
Theorem set_hvac_mode_reads_back self requested :
  let after := commanded perform self (set_hvac_mode self requested) in
  requested ≠ OFF →
  truthy (state (_device after)) = true →
  dehumidifier_state (_device after) ≠ THERMO_DEHUMIDIFIER_ON →
  hvac_mode after
  = Ok (match requested with
        | HEAT => HEAT
        | COOL => COOL
        | _ => AUTO
        end).
Proof.
  intros after Hoff Hon Hdh. rewrite hvac_mode_unfold, Hon. cbn [negb].
  rewrite decide_False by done.
  rewrite CAME_MODE_TO_HA_lookup, CAME_SEASON_TO_HA_lookup.
  subst after.
  destruct requested; try done;
    match goal with
    | |- context [commanded perform self (set_hvac_mode self ?r)] =>
        let c := eval cbv in (set_hvac_mode self r) in
        match c with
        | [?c1] =>
            change (_device (commanded perform self (set_hvac_mode self r)))
              with (perform c1 (_device self))
        end
    end;
    rewrite ?zone_config_mode, ?zone_config_season; done.
Qed.

End Mode_round_trip.

Lemma set_hvac_mode_reads_back_witness :
  Climate.hvac_mode
    (Climate.commanded CameThermo.keep
       (Climate.__init__ Sample.uid
          (Sample.zone CameThermo.THERMO_MODE_AUTO
             CameThermo.THERMO_SEASON_SUMMER "off"))
       (Climate.set_hvac_mode
          (Climate.__init__ Sample.uid
             (Sample.zone CameThermo.THERMO_MODE_AUTO
                CameThermo.THERMO_SEASON_SUMMER "off")) HA.HEAT))
  = Py.Ok HA.HEAT.
Proof.
  apply (set_hvac_mode_reads_back CameThermo.keep); done.
Defined.

Lemma set_off_reads_off_witness :
  Climate.hvac_mode
    (Climate.commanded CameThermo.keep
       (Climate.__init__ Sample.uid
          (Sample.zone CameThermo.THERMO_MODE_MANUAL
             CameThermo.THERMO_SEASON_WINTER "off"))
       (Climate.set_hvac_mode
          (Climate.__init__ Sample.uid
             (Sample.zone CameThermo.THERMO_MODE_MANUAL
                CameThermo.THERMO_SEASON_WINTER "off")) HA.OFF))
  = Py.Ok HA.OFF.
Proof. apply (set_off_reads_off CameThermo.keep); done. Defined.

(** ** Discovery *)

Section Discovery_facts.

Lemma omap_fmap_length {A B C} (f : B → C) (g : A → option B) (l : list A) :
  length (omap (λ x, f <$> g x) l)
  = length (filter (λ x, is_Some (g x)) l).
Proof.
  induction l as [| x l IH]; [done |].
  destruct (g x) as [y |] eqn:E.
  - rewrite filter_cons_True by (rewrite E; eauto).
    cbn. rewrite E. cbn. by rewrite IH.
  - rewrite filter_cons_False by (rewrite E; by intros [? ?]).
    cbn. by rewrite E.
Qed.

Lemma omap_skip {A B} (g : A → option B) (pre post : list A) (x : A) :
  g x = None → omap g (pre ++ x :: post) = omap g (pre ++ post).
Proof. intros E. rewrite !omap_app. cbn. by rewrite E. Qed.

Lemma climate_setup_loop_app unique_id manager dev_ids entities :
  Climate.setup_loop unique_id manager dev_ids entities
  = entities
      ++ omap (λ dev_id, Climate.__init__ unique_id <$> manager dev_id)
           dev_ids.
Proof.
  revert entities. induction dev_ids as [| dev_id rest IH]; intros entities.
  - cbn. by rewrite app_nil_r.
  - cbn. destruct (manager dev_id) as [device |]; cbn.
    + by rewrite IH, <- app_assoc.
    + apply IH.
Qed.

Lemma light_setup_loop_app unique_id manager dev_ids entities :
  Light.setup_loop unique_id manager dev_ids entities
  = entities
      ++ omap (λ dev_id, Light.__init__ unique_id <$> manager dev_id)
           dev_ids.
Proof.
  revert entities. induction dev_ids as [| dev_id rest IH]; intros entities.
  - cbn. by rewrite app_nil_r.
  - cbn. destruct (manager dev_id) as [device |]; cbn.
    + by rewrite IH, <- app_assoc.
    + apply IH.
Qed.

Lemma climate_setup_entities_omap unique_id hass dev_ids :
  Climate._setup_entities unique_id hass dev_ids
  = omap (λ dev_id,
            Climate.__init__ unique_id <$> Climate.CONF_MANAGER hass dev_id)
      dev_ids.
Proof. unfold Climate._setup_entities. by rewrite climate_setup_loop_app. Qed.

Lemma light_setup_entities_omap unique_id hass dev_ids :
  Light._setup_entities unique_id hass dev_ids
  = omap (λ dev_id,
            Light.__init__ unique_id <$> Light.CONF_MANAGER hass dev_id)
      dev_ids.
Proof. unfold Light._setup_entities. by rewrite light_setup_loop_app. Qed.

(** C6: in both platforms, for every sequence of device ids the listener
    receives, [_setup_entities] returns (it has no failing path) the
    entities of the ids that the manager resolves, one each and in order:
    an id that resolves to no device adds nothing, as if it were not in
    the sequence. A non-empty sequence leads to exactly one
    [async_add_entities] call, with all these entities; an empty one to
    none. *)
Theorem discovery_skips_unresolved :
  (∀ unique_id hass dev_ids,
     let entities := Climate._setup_entities unique_id hass dev_ids in
     entities
     = omap (λ dev_id, Climate.__init__ unique_id
                         <$> Climate.CONF_MANAGER hass dev_id) dev_ids
     ∧ length entities
       = length (filter (λ dev_id, is_Some (Climate.CONF_MANAGER hass dev_id))
                   dev_ids)
     ∧ (∀ pre dev_id post,
          dev_ids = pre ++ dev_id :: post →
          Climate.CONF_MANAGER hass dev_id = None →
          entities = Climate._setup_entities unique_id hass (pre ++ post))
     ∧ (dev_ids ≠ [] →
        Climate.async_discover_sensor unique_id hass dev_ids
        = [Climate.async_add_entities entities])
     ∧ (dev_ids = [] →
        Climate.async_discover_sensor unique_id hass dev_ids = []))
  ∧ (∀ unique_id hass dev_ids,
       let entities := Light._setup_entities unique_id hass dev_ids in
       entities
       = omap (λ dev_id, Light.__init__ unique_id
                           <$> Light.CONF_MANAGER hass dev_id) dev_ids
       ∧ length entities
         = length (filter (λ dev_id, is_Some (Light.CONF_MANAGER hass dev_id))
                     dev_ids)
       ∧ (∀ pre dev_id post,
            dev_ids = pre ++ dev_id :: post →
            Light.CONF_MANAGER hass dev_id = None →
            entities = Light._setup_entities unique_id hass (pre ++ post))
       ∧ (dev_ids ≠ [] →
          Light.async_discover_sensor unique_id hass dev_ids
          = [Light.async_add_entities entities])
       ∧ (dev_ids = [] →
          Light.async_discover_sensor unique_id hass dev_ids = [])).
Proof.
  split; intros unique_id hass dev_ids entities; subst entities.
  - rewrite !climate_setup_entities_omap.
    split; [done |]. split; [apply omap_fmap_length |].
    split; [| split].
    + intros pre dev_id post -> Hnone.
      rewrite climate_setup_entities_omap.
      apply omap_skip. by rewrite Hnone.
    + intros Hne. unfold Climate.async_discover_sensor.
      rewrite climate_setup_entities_omap. by destruct dev_ids.
    + by intros ->.
  - rewrite !light_setup_entities_omap.
    split; [done |]. split; [apply omap_fmap_length |].
    split; [| split].
    + intros pre dev_id post -> Hnone.
      rewrite light_setup_entities_omap.
      apply omap_skip. by rewrite Hnone.
    + intros Hne. unfold Light.async_discover_sensor.
      rewrite light_setup_entities_omap. by destruct dev_ids.
    + by intros ->.
Qed.

Lemma discovery_skips_unresolved_witness :
  Climate._setup_entities Sample.uid Sample.zone_hass ["known"; "lost"]
  = Climate._setup_entities Sample.uid Sample.zone_hass (["known"] ++ [])
  ∧ Climate.async_discover_sensor Sample.uid Sample.zone_hass
      ["known"; "lost"]
    = [Climate.async_add_entities
         (Climate._setup_entities Sample.uid Sample.zone_hass
            ["known"; "lost"])]
  ∧ Light._setup_entities Sample.uid Sample.light_hass ["lost"; "known"]
    = Light._setup_entities Sample.uid Sample.light_hass ([] ++ ["known"]).
Proof.
  destruct discovery_skips_unresolved as [Hc Hl].
  split; [| split].
  - apply (proj1 (proj2 (proj2
             (Hc Sample.uid Sample.zone_hass ["known"; "lost"])))
             ["known"] "lost" []); reflexivity.
  - apply (proj1 (proj2 (proj2 (proj2
             (Hc Sample.uid Sample.zone_hass ["known"; "lost"]))))).
    discriminate.
  - apply (proj1 (proj2 (proj2
             (Hl Sample.uid Sample.light_hass ["lost"; "known"])))
             [] "lost" ["known"]); reflexivity.
Defined.

(** X13: discovering two sequences of ids one after the other builds the
    same climate entities, in the same order, as discovering their
    concatenation; in particular an id that occurs twice gives two
    entities. *)
Theorem climate_setup_entities_app unique_id hass ids ids' :
  Climate._setup_entities unique_id hass (ids ++ ids')
  = Climate._setup_entities unique_id hass ids
      ++ Climate._setup_entities unique_id hass ids'.
Proof. rewrite !climate_setup_entities_omap. apply omap_app. Qed.

(** X14: every light entity that [_setup_entities] returns wraps a device
    that the manager resolved from one of the given ids, and every id that
    the manager resolves has its entity in the result. *)
Theorem light_setup_entities_elem unique_id hass dev_ids entity :
  entity ∈ Light._setup_entities unique_id hass dev_ids
  ↔ ∃ dev_id device,
      dev_id ∈ dev_ids
      ∧ Light.CONF_MANAGER hass dev_id = Some device
      ∧ entity = Light.__init__ unique_id device.
Proof.
  rewrite light_setup_entities_omap, list_elem_of_omap. split.
  - intros (dev_id & Hin & Hsome).
    destruct (Light.CONF_MANAGER hass dev_id) as [device |] eqn:E; [| done].
    injection Hsome as <-. eauto.
  - intros (dev_id & device & Hin & E & ->).
    exists dev_id. by rewrite E.
Qed.

(** X15: a non-empty sequence of ids of which the manager resolves none
    still leads to one [async_add_entities] call, with an empty batch. *)
Theorem climate_discover_all_unresolved unique_id hass dev_ids :
  dev_ids ≠ [] →
  (∀ dev_id, dev_id ∈ dev_ids → Climate.CONF_MANAGER hass dev_id = None) →
  Climate.async_discover_sensor unique_id hass dev_ids
  = [Climate.async_add_entities []].
Proof.
  intros Hne Hnone. unfold Climate.async_discover_sensor.
  rewrite climate_setup_entities_omap.
  assert (omap (λ dev_id, Climate.__init__ unique_id
                            <$> Climate.CONF_MANAGER hass dev_id) dev_ids
          = []) as ->.
  { clear Hne. induction dev_ids as [| dev_id rest IH]; [done |].
    cbn. rewrite Hnone by constructor. cbn.
    apply IH. intros i Hi. apply Hnone. by constructor. }
  by destruct dev_ids.
Qed.

Lemma climate_discover_all_unresolved_witness :
  Climate.async_discover_sensor Sample.uid Sample.zone_hass ["lost"; "gone"]
  = [Climate.async_add_entities []].
Proof.
  apply climate_discover_all_unresolved; [discriminate |].
  intros dev_id Hin.
  rewrite !elem_of_cons, elem_of_nil in Hin.
  destruct Hin as [-> | [-> | []]]; reflexivity.
Defined.

(** X16: [async_setup_entry] of the climate platform connects the listener
    to the climate discovery signal first, then discovers the ids that were
    pending for the climate domain: one batch when there are some, no call
    when there are none or the domain has no entry. It removes that entry
    from the pending ids and leaves the entries of the other domains, the
    light domain among them, and the manager as they were. *)
Theorem climate_async_setup_entry unique_id hass :
  let '(hass', effects) := Climate.async_setup_entry unique_id hass in
  Climate.CONF_PENDING hass' !! HA.CLIMATE_DOMAIN = None
  ∧ (∀ domain, domain ≠ HA.CLIMATE_DOMAIN →
       Climate.CONF_PENDING hass' !! domain
       = Climate.CONF_PENDING hass !! domain)
  ∧ Climate.CONF_PENDING hass' !! HA.LIGHT_DOMAIN
    = Climate.CONF_PENDING hass !! HA.LIGHT_DOMAIN
  ∧ Climate.CONF_MANAGER hass' = Climate.CONF_MANAGER hass
  ∧ effects
    = Climate.async_dispatcher_connect HA.CLIMATE_DOMAIN
        :: match Climate.CONF_PENDING hass !! HA.CLIMATE_DOMAIN with
           | None | Some [] => []
           | Some dev_ids =>
               [Climate.async_add_entities
                  (Climate._setup_entities unique_id hass dev_ids)]
           end.
Proof.
  cbn. split; [apply lookup_delete_eq |].
  split; [intros domain Hne; by apply lookup_delete_ne |].
  split; [by apply lookup_delete_ne |].
  split; [done |]. f_equal.
  destruct (Climate.CONF_PENDING hass !! HA.CLIMATE_DOMAIN) as [[| i l] |];
    done.
Qed.

(** X17: the same for the light platform and the light domain; the pending
    climate ids are left alone. *)
Theorem light_async_setup_entry unique_id hass :
  let '(hass', effects) := Light.async_setup_entry unique_id hass in
  Light.CONF_PENDING hass' !! HA.LIGHT_DOMAIN = None
  ∧ (∀ domain, domain ≠ HA.LIGHT_DOMAIN →
       Light.CONF_PENDING hass' !! domain
       = Light.CONF_PENDING hass !! domain)
  ∧ Light.CONF_PENDING hass' !! HA.CLIMATE_DOMAIN
    = Light.CONF_PENDING hass !! HA.CLIMATE_DOMAIN
  ∧ Light.CONF_MANAGER hass' = Light.CONF_MANAGER hass
  ∧ effects
    = Light.async_dispatcher_connect HA.LIGHT_DOMAIN
        :: match Light.CONF_PENDING hass !! HA.LIGHT_DOMAIN with
           | None | Some [] => []
           | Some dev_ids =>
               [Light.async_add_entities
                  (Light._setup_entities unique_id hass dev_ids)]
           end.
Proof.
  cbn. split; [apply lookup_delete_eq |].
  split; [intros domain Hne; by apply lookup_delete_ne |].
  split; [by apply lookup_delete_ne |].
  split; [done |]. f_equal.
  destruct (Light.CONF_PENDING hass !! HA.LIGHT_DOMAIN) as [[| i l] |];
    done.
Qed.

End Discovery_facts.

(** ** The light entity *)

Section Light_facts.
Import Py HA CameLight Light.

Implicit Types (self : CameLightEntity) (device : CameLight.device).

(** The colour modes [__init__] ends with, by capability. *)
Lemma init_color_modes unique_id device :
  _attr_supported_color_modes (__init__ unique_id device)
  = match support_brightness device, support_color device with
    | true, true => {[HS; BRIGHTNESS]}
    | true, false => {[BRIGHTNESS]}
    | false, true => {[HS]}
    | false, false => {[BRIGHTNESS]}
    end.
Proof.
  unfold __init__.
  destruct (support_brightness device), (support_color device); cbn;
    case_bool_decide; cbn; set_solver.
Qed.

Lemma init_color_mode unique_id device :
  _attr_color_mode (__init__ unique_id device)
  = Some (if support_color device then HS else BRIGHTNESS).
Proof.
  unfold __init__.
  by destruct (support_brightness device), (support_color device).
Qed.

(** C5: at construction BRIGHTNESS is in the supported colour modes when
    the device supports brightness; HS is in them and is the active mode
    when the device supports colour, and BRIGHTNESS is the active mode
    otherwise; with neither capability BRIGHTNESS is in them all the same,
    so they are never empty. Nothing else is added: HS is supported only
    with colour support, BRIGHTNESS only with brightness support or with
    neither capability, and no other mode ever, so the set is exactly the
    one the two flags give. *)
Theorem init_supported_color_modes unique_id device :
  let self := __init__ unique_id device in
  (support_brightness device = true →
   BRIGHTNESS ∈ _attr_supported_color_modes self)
  ∧ (support_color device = true →
     HS ∈ _attr_supported_color_modes self
     ∧ _attr_color_mode self = Some HS)
  ∧ (support_color device = false →
     _attr_color_mode self = Some BRIGHTNESS)
  ∧ (support_brightness device = false → support_color device = false →
     BRIGHTNESS ∈ _attr_supported_color_modes self)
  ∧ _attr_supported_color_modes self ≠ ∅
  ∧ (HS ∈ _attr_supported_color_modes self ↔ support_color device = true)
  ∧ (BRIGHTNESS ∈ _attr_supported_color_modes self
     ↔ support_brightness device = true ∨ support_color device = false)
  ∧ (∀ other : ColorMode,
       other ∈ _attr_supported_color_modes self →
       other = BRIGHTNESS ∨ other = HS)
  ∧ _attr_supported_color_modes self
    = (if support_brightness device then {[BRIGHTNESS]} else ∅)
        ∪ (if support_color device then {[HS]} else ∅)
        ∪ (if support_brightness device || support_color device
           then ∅ else {[BRIGHTNESS]}).
Proof.
  intros self. subst self.
  rewrite init_color_modes, init_color_mode.
  destruct (support_brightness device), (support_color device); cbn [orb];
    repeat split; intros; try done; set_solver.
Qed.

Lemma init_supported_color_modes_witness :
  BRIGHTNESS ∈ _attr_supported_color_modes
                 (__init__ Sample.uid Sample.switch)
  ∧ (HS ∈ _attr_supported_color_modes (__init__ Sample.uid (Sample.lamp 0))
     ∧ _attr_color_mode (__init__ Sample.uid (Sample.lamp 0)) = Some HS)
  ∧ (RGB ∈ _attr_supported_color_modes (__init__ Sample.uid (Sample.lamp 0))
     → RGB = BRIGHTNESS ∨ RGB = HS).
Proof.
  split; [| split].
  - apply (proj1 (proj2 (proj2 (proj2
             (init_supported_color_modes Sample.uid Sample.switch)))));
      reflexivity.
  - apply (proj1 (proj2
             (init_supported_color_modes Sample.uid (Sample.lamp 0))));
      reflexivity.
  - apply (proj1 (proj2 (proj2 (proj2 (proj2 (proj2 (proj2 (proj2
             (init_supported_color_modes Sample.uid (Sample.lamp 0)))))))))
             RGB).
Defined.

(** C10: after construction the active colour mode is set (it is not
    None), it is HS when the device supports colour and BRIGHTNESS
    otherwise, and it is one of the supported colour modes, whatever the
    two capability flags are. *)
Theorem color_mode_supported unique_id device :
  let self := __init__ unique_id device in
  ∃ active : ColorMode,
    color_mode self = Some active
    ∧ active = (if support_color device then HS else BRIGHTNESS)
    ∧ active ∈ _attr_supported_color_modes self.
Proof.
  intros self. subst self. unfold color_mode.
  rewrite init_color_modes, init_color_mode.
  eexists. split; [done |]. split; [done |].
  destruct (support_brightness device), (support_color device); set_solver.
Qed.

(** C7: [turn_on] with neither a brightness nor a hue and saturation
    issues the plain [turn_on] of the device. With a brightness it issues
    [set_brightness] with [round(value*100/255)], with a hue and
    saturation it issues [set_hs_color] with that pair, and with both it
    issues both, the brightness first. *)
Theorem turn_on_commands self :
  turn_on self {| ATTR_BRIGHTNESS := None; ATTR_HS_COLOR := None |}
  = Ok [CameLight.turn_on]
  ∧ (∀ value percent,
       truediv (value * 100) 255 ≫= round = Ok percent →
       turn_on self {| ATTR_BRIGHTNESS := Some value; ATTR_HS_COLOR := None |}
       = Ok [set_brightness percent])
  ∧ (∀ hs,
       turn_on self {| ATTR_BRIGHTNESS := None; ATTR_HS_COLOR := Some hs |}
       = Ok [set_hs_color hs])
  ∧ (∀ value percent hs,
       truediv (value * 100) 255 ≫= round = Ok percent →
       turn_on self
         {| ATTR_BRIGHTNESS := Some value; ATTR_HS_COLOR := Some hs |}
       = Ok [set_brightness percent; set_hs_color hs]).
Proof.
  repeat split; try done.
  - intros value percent E. unfold turn_on.
    cbn [ATTR_BRIGHTNESS ATTR_HS_COLOR].
    rewrite bool_decide_eq_true_2 by eauto. cbn [negb andb].
    by rewrite E.
  - intros value percent hs E. unfold turn_on.
    cbn [ATTR_BRIGHTNESS ATTR_HS_COLOR].
    rewrite bool_decide_eq_true_2 by eauto. cbn [negb andb].
    by rewrite E.
Qed.

Lemma turn_on_commands_witness :
  turn_on (__init__ Sample.uid (Sample.dimmer 0))
    {| ATTR_BRIGHTNESS := Some 128; ATTR_HS_COLOR := Some [] |}
  = Ok [set_brightness 50; set_hs_color []].
Proof.
  apply (proj2 (proj2 (proj2 (turn_on_commands _)))). by vm_compute.
Defined.

(** A property checked on every integer of [0, n) holds on the range. *)
Lemma Z_range_forallb (P : Z → bool) (n : nat) :
  forallb P (map Z.of_nat (seq 0 n)) = true →
  ∀ z, 0 ≤ z < Z.of_nat n → P z = true.
Proof.
  intros Hall z Hz. rewrite forallb_forall in Hall. apply Hall.
  apply in_map_iff. exists (Z.to_nat z). split; [lia |].
  apply in_seq. lia.
Qed.

(** On the framework's scale the division and the rounding of [turn_on]
    never fail, and the percentage is the integer nearest to
    [value * 100 / 255], which is never half way between two. *)
Lemma to_percent_in_range value :
  0 ≤ value ≤ 255 →
  truediv (value * 100) 255 ≫= round = Ok ((40 * value + 51) / 102).
Proof.
  intros Hv.
  pose (P := λ b : Z,
    match truediv (b * 100) 255 ≫= round with
    | Ok p => p =? (40 * b + 51) / 102
    | Raise _ => false
    end).
  assert (HP : P value = true).
  { apply (Z_range_forallb P 256); [by vm_compute | lia]. }
  unfold P in HP.
  destruct (truediv (value * 100) 255 ≫= round) as [p | e]; [| done].
  f_equal. lia.
Qed.

(** On the device's scale the getter's arithmetic never fails, and its
    value is an integer nearest to [percent * 255 / 100]: the even one of
    the two when that is half way. *)
Lemma from_percent_in_range percent :
  0 ≤ percent ≤ 100 →
  ∃ value,
    truediv (percent * 255) 100 ≫= round = Ok value
    ∧ -10 ≤ 20 * value - 51 * percent ≤ 10
    ∧ (20 * value - 51 * percent = 10 ∨ 20 * value - 51 * percent = -10 →
       Z.even value = true).
Proof.
  intros Hp.
  pose (P := λ p : Z,
    match truediv (p * 255) 100 ≫= round with
    | Ok v =>
        (-10 <=? 20 * v - 51 * p) && (20 * v - 51 * p <=? 10)
        && (negb (Z.abs (20 * v - 51 * p) =? 10) || Z.even v)
    | Raise _ => false
    end).
  assert (HP : P percent = true).
  { apply (Z_range_forallb P 101); [by vm_compute | lia]. }
  unfold P in HP.
  destruct (truediv (percent * 255) 100 ≫= round) as [v | e]; [| done].
  exists v. split; [done |].
  apply andb_prop in HP as [HP Heven]. apply andb_prop in HP as [H1 H2].
  split; [lia |]. intros Htie.
  apply orb_prop in Heven as [Hne | Hev]; [| done].
  apply negb_true_iff, Z.eqb_neq in Hne. lia.
Qed.

(** Reading a percentage on the framework's scale and scaling the value
    back gives the percentage again. *)
Lemma percent_survives percent :
  0 ≤ percent ≤ 100 →
  ∃ value,
    truediv (percent * 255) 100 ≫= round = Ok value
    ∧ truediv (value * 100) 255 ≫= round = Ok percent
    ∧ 0 ≤ value ≤ 255.
Proof.
  intros Hp.
  pose (P := λ p : Z,
    match truediv (p * 255) 100 ≫= round with
    | Ok v =>
        match truediv (v * 100) 255 ≫= round with
        | Ok p' => (p' =? p) && (0 <=? v) && (v <=? 255)
        | Raise _ => false
        end
    | Raise _ => false
    end).
  assert (HP : P percent = true).
  { apply (Z_range_forallb P 101); [by vm_compute | lia]. }
  unfold P in HP.
  destruct (truediv (percent * 255) 100 ≫= round) as [v | e]; [| done].
  exists v. split; [done |].
  destruct (truediv (v * 100) 255 ≫= round) as [p' | e]; [| done].
  apply andb_prop in HP as [HP H3]. apply andb_prop in HP as [H1 H2].
  apply Z.eqb_eq in H1 as ->. split; [done | lia].
Qed.

Lemma turn_on_with_brightness self kwargs value percent :
  ATTR_BRIGHTNESS kwargs = Some value →
  truediv (value * 100) 255 ≫= round = Ok percent →
  turn_on self kwargs
  = Ok (set_brightness percent
          :: match ATTR_HS_COLOR kwargs with
             | Some hs => [set_hs_color hs]
             | None => []
             end).
Proof.
  intros Hkw E. unfold turn_on. rewrite Hkw.
  rewrite bool_decide_eq_true_2 by eauto. cbn [negb andb].
  by rewrite E.
Qed.

(** X6: with a brightness on the framework's scale, 0..255, [turn_on] does
    not raise, and the percentage it gives to [set_brightness] is the
    integer nearest to [value * 100 / 255] and lies in 0..100. *)
Theorem turn_on_brightness_in_range self kwargs value :
  ATTR_BRIGHTNESS kwargs = Some value →
  0 ≤ value ≤ 255 →
  ∃ percent,
    turn_on self kwargs
    = Ok (set_brightness percent
            :: match ATTR_HS_COLOR kwargs with
               | Some hs => [set_hs_color hs]
               | None => []
               end)
    ∧ 0 ≤ percent ≤ 100
    ∧ -25 ≤ 51 * percent - 20 * value ≤ 25.
Proof.
  intros Hkw Hv. exists ((40 * value + 51) / 102).
  split;
    [by apply (turn_on_with_brightness self kwargs value),
          to_percent_in_range |].
  pose proof (Z.mul_div_le (40 * value + 51) 102).
  pose proof (Z.mul_succ_div_gt (40 * value + 51) 102). lia.
Qed.

Lemma turn_on_brightness_in_range_witness :
  ∃ percent,
    turn_on (__init__ Sample.uid (Sample.dimmer 0))
      {| ATTR_BRIGHTNESS := Some 255; ATTR_HS_COLOR := None |}
    = Ok [set_brightness percent]
    ∧ 0 ≤ percent ≤ 100
    ∧ -25 ≤ 51 * percent - 20 * 255 ≤ 25.
Proof.
  apply (turn_on_brightness_in_range _
           {| ATTR_BRIGHTNESS := Some 255; ATTR_HS_COLOR := None |});
    [reflexivity | lia].
Defined.

(** X7: a brighter request never gives a lower percentage: for two
    brightness values of 0..255 in order, the percentages that [turn_on]
    gives to [set_brightness] are in the same order. *)
Theorem turn_on_brightness_monotone self low high p_low p_high :
  0 ≤ low → low ≤ high → high ≤ 255 →
  turn_on self {| ATTR_BRIGHTNESS := Some low; ATTR_HS_COLOR := None |}
  = Ok [set_brightness p_low] →
  turn_on self {| ATTR_BRIGHTNESS := Some high; ATTR_HS_COLOR := None |}
  = Ok [set_brightness p_high] →
  p_low ≤ p_high.
Proof.
  intros H0 Hle H255.
  rewrite (turn_on_with_brightness self _ low ((40 * low + 51) / 102))
    by (done || apply to_percent_in_range; lia).
  rewrite (turn_on_with_brightness self _ high ((40 * high + 51) / 102))
    by (done || apply to_percent_in_range; lia).
  cbn. intros [= <-] [= <-]. apply Z.div_le_mono; lia.
Qed.

Lemma turn_on_brightness_monotone_witness : 20 ≤ 50.
Proof.
  apply (turn_on_brightness_monotone (__init__ Sample.uid (Sample.dimmer 0))
           51 128 20 50); (lia || by vm_compute).
Defined.

(** X8: on a light that supports brightness and reports a percentage of
    0..100, the [brightness] getter does not raise and returns a value of
    0..255, an integer nearest to [percent * 255 / 100]; it is 0 only at 0
    percent and 255 only at 100 percent. *)
Theorem brightness_in_range self :
  support_brightness (_device self) = true →
  0 ≤ CameLight.brightness (_device self) ≤ 100 →
  ∃ value,
    brightness self = Ok (Some value)
    ∧ 0 ≤ value ≤ 255
    ∧ -10 ≤ 20 * value - 51 * CameLight.brightness (_device self) ≤ 10
    ∧ (value = 0 ↔ CameLight.brightness (_device self) = 0)
    ∧ (value = 255 ↔ CameLight.brightness (_device self) = 100).
Proof.
  intros Hsup Hp.
  destruct (from_percent_in_range _ Hp) as (value & Hvalue & Hnear & _).
  exists value. unfold brightness. rewrite Hsup, Hvalue. cbn [negb].
  split; [done |]. lia.
Qed.

Lemma brightness_in_range_witness :
  ∃ value,
    brightness (__init__ Sample.uid (Sample.dimmer 50)) = Ok (Some value)
    ∧ 0 ≤ value ≤ 255
    ∧ -10 ≤ 20 * value - 51 * 50 ≤ 10
    ∧ (value = 0 ↔ 50 = 0)
    ∧ (value = 255 ↔ 50 = 100).
Proof.
  apply (brightness_in_range (__init__ Sample.uid (Sample.dimmer 50)));
    [reflexivity | cbn; lia].
Defined.

(** X9: the [brightness] getter returns None exactly when the device does
    not support brightness, whatever the device reports. *)
Theorem brightness_none_iff self :
  brightness self = Ok None ↔ support_brightness (_device self) = false.
Proof.
  unfold brightness. destruct (support_brightness (_device self)); cbn [negb].
  - split; [| done].
    by destruct (truediv (CameLight.brightness (_device self) * 255) 100
                 ≫= round).
  - done.
Qed.

(** X10: giving the value that the [brightness] getter returns back to
    [turn_on] commands the very percentage that the device reports: the
    device's 0..100 scale survives the trip through the framework's. *)
Theorem brightness_read_then_write self value :
  support_brightness (_device self) = true →
  0 ≤ CameLight.brightness (_device self) ≤ 100 →
  brightness self = Ok (Some value) →
  turn_on self {| ATTR_BRIGHTNESS := Some value; ATTR_HS_COLOR := None |}
  = Ok [set_brightness (CameLight.brightness (_device self))].
Proof.
  intros Hsup Hp.
  destruct (percent_survives _ Hp) as (v & Hv & Hback & _).
  unfold brightness. rewrite Hsup, Hv. cbn [negb]. intros [= <-].
  by rewrite (turn_on_with_brightness self _ v
                (CameLight.brightness (_device self))).
Qed.

Lemma brightness_read_then_write_witness :
  turn_on (__init__ Sample.uid (Sample.dimmer 30))
    {| ATTR_BRIGHTNESS := Some 76; ATTR_HS_COLOR := None |}
  = Ok [set_brightness 30].
Proof.
  apply (brightness_read_then_write (__init__ Sample.uid (Sample.dimmer 30)));
    [reflexivity | cbn; lia | by vm_compute].
Defined.

(** X11: two lights that support brightness and report different
    percentages of 0..100 read as different brightness values, in the same
    order. *)
Theorem brightness_strictly_monotone self other v_self v_other :
  support_brightness (_device self) = true →
  support_brightness (_device other) = true →
  0 ≤ CameLight.brightness (_device self) →
  CameLight.brightness (_device self) < CameLight.brightness (_device other) →
  CameLight.brightness (_device other) ≤ 100 →
  brightness self = Ok (Some v_self) →
  brightness other = Ok (Some v_other) →
  v_self < v_other.
Proof.
  intros Hs Ho H0 Hlt H100.
  destruct (from_percent_in_range (CameLight.brightness (_device self)))
    as (v1 & E1 & Hn1 & _); [lia |].
  destruct (from_percent_in_range (CameLight.brightness (_device other)))
    as (v2 & E2 & Hn2 & _); [lia |].
  unfold brightness. rewrite Hs, Ho, E1, E2. cbn [negb].
  intros [= <-] [= <-]. lia.
Qed.

Lemma brightness_strictly_monotone_witness : 26 < 76.
Proof.
  apply (brightness_strictly_monotone
           (__init__ Sample.uid (Sample.dimmer 10))
           (__init__ Sample.uid (Sample.dimmer 30)));
    (reflexivity || (cbn; lia) || by vm_compute).
Defined.

(** X12: when [turn_on] returns, it has made one or two device calls; the
    plain [turn_on] of the device is among them exactly when neither a
    brightness nor a hue and saturation was given, and [turn_off] never
    is. *)
Theorem turn_on_calls_shape self kwargs calls :
  turn_on self kwargs = Ok calls →
  (1 ≤ length calls ≤ 2)%nat
  ∧ (CameLight.turn_on ∈ calls
     ↔ ATTR_BRIGHTNESS kwargs = None ∧ ATTR_HS_COLOR kwargs = None)
  ∧ CameLight.turn_off ∉ calls.
Proof.
  unfold turn_on.
  destruct (ATTR_BRIGHTNESS kwargs) as [value |],
           (ATTR_HS_COLOR kwargs) as [hs |]; cbn [negb andb].
  - rewrite !bool_decide_eq_true_2 by eauto. cbn [negb andb].
    destruct (truediv (value * 100) 255 ≫= round) as [p | e]; [| done].
    intros [= <-]. cbn. split; [lia |].
    rewrite !elem_of_cons, !elem_of_nil. split; [| intuition discriminate].
    split; [intuition discriminate | intros [? _]; discriminate].
  - rewrite bool_decide_eq_true_2 by eauto. cbn [negb andb].
    destruct (truediv (value * 100) 255 ≫= round) as [p | e]; [| done].
    intros [= <-]. cbn. split; [lia |].
    rewrite !elem_of_cons, !elem_of_nil. split; [| intuition discriminate].
    split; [intuition discriminate | intros [? _]; discriminate].
  - rewrite bool_decide_eq_false_2 by (by intros [? ?]).
    rewrite bool_decide_eq_true_2 by eauto. cbn [negb andb].
    intros [= <-]. cbn. split; [lia |].
    rewrite !elem_of_cons, !elem_of_nil. split; [| intuition discriminate].
    split; [intuition discriminate | intros [_ ?]; discriminate].
  - rewrite !bool_decide_eq_false_2 by (by intros [? ?]). cbn [negb andb].
    intros [= <-]. cbn. split; [lia |].
    rewrite !elem_of_cons, !elem_of_nil. split; [| intuition discriminate].
    split; [done | intros _; by left].
Qed.

Lemma turn_on_calls_shape_witness :
  (1 ≤ length [set_hs_color []] ≤ 2)%nat
  ∧ (CameLight.turn_on ∈ [set_hs_color []]
     ↔ (None : option Z) = None ∧ Some [] = (None : option (list float)))
  ∧ CameLight.turn_off ∉ [set_hs_color []].
Proof.
  apply (turn_on_calls_shape (__init__ Sample.uid (Sample.dimmer 0))
           {| ATTR_BRIGHTNESS := None; ATTR_HS_COLOR := Some [] |}).
  reflexivity.
Defined.

End Light_facts.

(** ** Brightness through a device *)

Section Brightness_round_trip.
Import Py HA CameLight Light.

(** What a call does to the device: any vendor device that reports the
    brightness it was last given, and whose capabilities are fixed. *)
Variable perform : call → device → device.
Hypothesis set_brightness_kept :
  ∀ percent d, CameLight.brightness (perform (set_brightness percent) d) = percent.
Hypothesis set_hs_color_brightness :
  ∀ hs d,
    CameLight.brightness (perform (set_hs_color hs) d) = CameLight.brightness d.
Hypothesis support_brightness_fixed :
  ∀ c d, support_brightness (perform c d) = support_brightness d.

Lemma commanded_support_brightness self calls :
  support_brightness (_device (commanded perform self calls))
  = support_brightness (_device self).
Proof.
  cbn. generalize (_device self) as d.
  induction calls as [| c calls IH]; intros d; [done |].
  cbn. by rewrite IH, support_brightness_fixed.
Qed.

(** C4: for a brightness [B] of 0..255 given to [turn_on], on a light that
    supports brightness, the [brightness] getter read afterwards returns
    [round(round(B*100/255)*255/100)], and that is [B - 1], [B] or
    [B + 1]. *)
Theorem brightness_round_trip self kwargs B :
  0 ≤ B ≤ 255 →
  ATTR_BRIGHTNESS kwargs = Some B →
  support_brightness (_device self) = true →
  ∃ calls read,
    turn_on self kwargs = Ok calls
    ∧ brightness (commanded perform self calls) = Ok (Some read)
    ∧ Spec.brightness_round_trip B = Ok read
    ∧ B - 1 ≤ read ≤ B + 1.
Proof.
  intros HB Hkw Hsup.
  pose proof (to_percent_in_range B HB) as Hpercent.
  set (percent := (40 * B + 51) / 102) in *.
  assert (Hrange : 0 ≤ percent ≤ 100).
  { subst percent. split.
    - apply Z.div_pos; lia.
    - apply Z.lt_succ_r, Z.div_lt_upper_bound; lia. }
  destruct (from_percent_in_range percent Hrange) as (read & Hread & Hnear & _).
  exists (set_brightness percent
            :: match ATTR_HS_COLOR kwargs with
               | Some hs => [set_hs_color hs]
               | None => []
               end), read.
  split; [| split; [| split]].
  - unfold turn_on. rewrite Hkw.
    rewrite bool_decide_eq_true_2 by eauto. cbn [negb andb].
    by rewrite Hpercent.
  - unfold brightness. rewrite commanded_support_brightness, Hsup.
    cbn [negb].
    assert (CameLight.brightness (_device (commanded perform self
              (set_brightness percent
                 :: match ATTR_HS_COLOR kwargs with
                    | Some hs => [set_hs_color hs]
                    | None => []
                    end))) = percent) as ->.
    { cbn. destruct (ATTR_HS_COLOR kwargs); cbn.
      - by rewrite set_hs_color_brightness.
      - done. }
    by rewrite Hread.
  - unfold Spec.brightness_round_trip. by rewrite Hpercent.
  - assert (Hfloor : 102 * percent ≤ 40 * B + 51 < 102 * percent + 102).
    { subst percent.
      pose proof (Z.mul_div_le (40 * B + 51) 102).
      pose proof (Z.mul_succ_div_gt (40 * B + 51) 102). lia. }
    lia.
Qed.

End Brightness_round_trip.

Lemma brightness_round_trip_witness :
  ∃ calls read,
    Light.turn_on (Light.__init__ Sample.uid (Sample.dimmer 0))
      {| Light.ATTR_BRIGHTNESS := Some 200; Light.ATTR_HS_COLOR := None |}
    = Py.Ok calls
    ∧ Light.brightness
        (Light.commanded CameLight.keep
           (Light.__init__ Sample.uid (Sample.dimmer 0)) calls)
      = Py.Ok (Some read)
    ∧ Spec.brightness_round_trip 200 = Py.Ok read
    ∧ 200 - 1 ≤ read ≤ 200 + 1.
Proof.
  apply (brightness_round_trip CameLight.keep); try done. by intros [] [].
Defined.

(** ** Colour through a device *)

Section Colour_round_trip.
Import Py HA CameLight Light.

(** Any vendor device that reports the hue and saturation it was last
    given, and whose capabilities are fixed. *)
Variable perform : call → device → device.
Hypothesis set_hs_color_kept :
  ∀ hs d, CameLight.hs_color (perform (set_hs_color hs) d) = hs.
Hypothesis support_color_fixed :
  ∀ c d, support_color (perform c d) = support_color d.

Lemma commanded_support_color self calls :
  support_color (_device (commanded perform self calls))
  = support_color (_device self).
Proof.
  cbn. generalize (_device self) as d.
  induction calls as [| c calls IH]; intros d; [done |].
  cbn. by rewrite IH, support_color_fixed.
Qed.

(** X18: after a [turn_on] with a hue and saturation, with or without a
    brightness, the [hs_color] getter returns that pair on a light that
    supports colour, and None on one that does not. *)
Theorem hs_color_round_trip self kwargs calls hs :
  ATTR_HS_COLOR kwargs = Some hs →
  turn_on self kwargs = Ok calls →
  hs_color (commanded perform self calls)
  = if support_color (_device self) then Some hs else None.
Proof.
  intros Hkw. unfold turn_on, hs_color.
  rewrite commanded_support_color, Hkw.
  rewrite (bool_decide_eq_true_2 (is_Some (Some hs))) by eauto.
  rewrite andb_false_r.
  destruct (support_color (_device self)); cbn [negb]; [| done].
  destruct (ATTR_BRIGHTNESS kwargs) as [value |].
  - destruct (truediv (value * 100) 255 ≫= round) as [p | e]; [| done].
    intros [= <-]. cbn. by rewrite set_hs_color_kept.
  - intros [= <-]. cbn. by rewrite set_hs_color_kept.
Qed.

End Colour_round_trip.

Lemma hs_color_round_trip_witness :
  Light.hs_color
    (Light.commanded CameLight.keep
       (Light.__init__ Sample.uid (Sample.lamp 0))
       [CameLight.set_brightness 50; CameLight.set_hs_color Sample.orange])
  = Some Sample.orange
  ∧ Light.hs_color
      (Light.commanded CameLight.keep
         (Light.__init__ Sample.uid (Sample.dimmer 0))
         [CameLight.set_hs_color Sample.orange])
    = None.
Proof.
  split.
  - apply (hs_color_round_trip CameLight.keep (λ _ _, eq_refl)
             (λ c d, match c with
                     | CameLight.turn_on | _ => eq_refl
                     end)
             (Light.__init__ Sample.uid (Sample.lamp 0))
             {| Light.ATTR_BRIGHTNESS := Some 128;
                Light.ATTR_HS_COLOR := Some Sample.orange |}
             [CameLight.set_brightness 50;
              CameLight.set_hs_color Sample.orange]
             Sample.orange eq_refl).
    by vm_compute.
  - apply (hs_color_round_trip CameLight.keep (λ _ _, eq_refl)
             (λ c d, match c with
                     | CameLight.turn_on | _ => eq_refl
                     end)
             (Light.__init__ Sample.uid (Sample.dimmer 0))
             {| Light.ATTR_BRIGHTNESS := None;
                Light.ATTR_HS_COLOR := Some Sample.orange |}
             [CameLight.set_hs_color Sample.orange]
             Sample.orange eq_refl).
    by vm_compute.
Defined.
